(** * systray.c: tray selection, dock requests and XEMBED focus requests

    A shallow embedding of the four functions of systray.c.  The window
    manager state [globalconf] is threaded explicitly; every request sent to
    the X server, and every call into another module of the window manager
    that has an effect, is recorded in order in a trace.  Reading or writing
    [globalconf.screens] outside the table is undefined in C and stops the
    computation with [Fault]. *)

From Stdlib Require Import ZArith String DecimalString Lia.
From Stdlib Require DecimalPos DecimalZ.
From stdpp Require Import base decidable list.

Local Open Scope Z_scope.

(** ** Types of the X protocol and of the window manager *)

Definition xcb_window_t := Z.
Definition xcb_atom_t := Z.

(** common/xembed.h *)
Record xembed_info_t := { version : Z; flags : Z }.

Record xembed_window_t :=
  { win : xcb_window_t; phys_screen : Z; info : xembed_info_t }.

(** common/swindow.h: only the X window of a simple window is used here. *)
Record simple_window_t := { window : xcb_window_t }.

(** structs.h: [systray] is a pointer, [None] is the null pointer. *)
Record screen_t := { systray : option simple_window_t }.

(** The fields of [awesome_t] that systray.c touches; [nscreen] stands for
    [globalconf.screens_info->nscreen]. *)
Record awesome_t :=
  { embedded : list xembed_window_t;
    screens : list screen_t;
    nscreen : Z }.

(** [xcb_client_message_event_t], with the five 32-bit slots of its data. *)
Record xcb_client_message_event_t :=
  { response_type : Z;
    format : Z;
    ev_window : xcb_window_t;
    data32_0 : Z; data32_1 : Z; data32_2 : Z; data32_3 : Z; data32_4 : Z }.

(** ** Constants *)

(** xcb/xproto.h and xcb/xcb_icccm.h *)
Definition XCB_CURRENT_TIME : Z := 0.
Definition XCB_CW_EVENT_MASK : Z := 2048.
Definition XCB_EVENT_MASK_ENTER_WINDOW : Z := 16.
Definition XCB_EVENT_MASK_STRUCTURE_NOTIFY : Z := 131072.
Definition XCB_EVENT_MASK_PROPERTY_CHANGE : Z := 4194304.
Definition XCB_WM_WITHDRAWN_STATE : Z := 0.

(** systray.c, line 32 *)
Definition SYSTEM_TRAY_REQUEST_DOCK : Z := 0.

Definition select_input_val : Z :=
  Z.lor (Z.lor XCB_EVENT_MASK_STRUCTURE_NOTIFY XCB_EVENT_MASK_PROPERTY_CHANGE)
        XCB_EVENT_MASK_ENTER_WINDOW.

(** ** Requests and calls with an effect outside [globalconf] *)

Inductive xcall :=
| ChangeWindowAttributes (w : xcb_window_t) (mask val : Z)
| WindowSetstate (w : xcb_window_t) (state : Z)
| XembedInfoGet (w : xcb_window_t)
| XembedEmbeddedNotify (client embedder : xcb_window_t) (vers : Z)
| MapWindow (w : xcb_window_t)
| WidgetInvalidateCache (screen kind : Z)
| GetGeometry (w : xcb_window_t)
| XembedFocusIn (client : xcb_window_t) (focus_type : Z)
| InternAtom (name : string)
| InternAtomReply (name : string)
| SimplewindowNew (screen x y w h border : Z)
| SetSelectionOwner (owner : xcb_window_t) (selection : xcb_atom_t) (time : Z).

(** What the X server answers.  [geometry_root w] is the root field of the
    reply to [xcb_get_geometry] on [w], [None] when no reply comes. *)
Record xserver :=
  { setup_roots : list xcb_window_t;
    geometry_root : xcb_window_t -> option xcb_window_t;
    xembed_info : xcb_window_t -> option xembed_info_t;
    intern_atom : string -> xcb_atom_t;
    new_window : Z -> xcb_window_t }.

(** ** The monad: state [awesome_t], a trace of calls, and faults *)

Inductive outcome (A : Type) :=
| Returned (a : A) (g : awesome_t) (tr : list xcall)
| Fault (g : awesome_t) (tr : list xcall).
Arguments Returned {A} a g tr.
Arguments Fault {A} g tr.

Definition M (A : Type) : Type := awesome_t -> outcome A.

Definition ret {A} (a : A) : M A := fun g => Returned a g [].

Definition bind {A B} (m : M A) (k : A -> M B) : M B := fun g =>
  match m g with
  | Returned a g1 tr1 =>
      match k a g1 with
      | Returned b g2 tr2 => Returned b g2 (tr1 ++ tr2)
      | Fault g2 tr2 => Fault g2 (tr1 ++ tr2)
      end
  | Fault g1 tr1 => Fault g1 tr1
  end.

(** The instances give [M] stdpp's notations [x ← m; k] and [m;; k]. *)
#[export] Instance M_ret : MRet M := @ret.
#[export] Instance M_bind : MBind M := fun A B k m => bind m k.

Definition call (c : xcall) : M unit := fun g => Returned tt g [c].
Definition get : M awesome_t := fun g => Returned g g [].
Definition put (g : awesome_t) : M unit := fun _ => Returned tt g [].

Fixpoint for_each {A} (l : list A) (body : A -> M unit) : M unit :=
  match l with
  | [] => ret tt
  | i :: rest => body i;; for_each rest body
  end.

(** State and trace an outcome ends with, returned or not. *)
Definition final_state {A} (o : outcome A) : awesome_t :=
  match o with Returned _ g _ => g | Fault g _ => g end.

Definition trace {A} (o : outcome A) : list xcall :=
  match o with Returned _ _ tr => tr | Fault _ tr => tr end.

(** [globalconf.screens[i]]: a read, and a write of the systray field. *)
Definition screens_read (i : Z) : M screen_t := fun g =>
  if 0 <=? i then
    match screens g !! Z.to_nat i with
    | Some s => Returned s g []
    | None => Fault g []
    end
  else Fault g [].

Definition screens_write_systray (i : Z) (sw : simple_window_t) : M unit :=
  _ ← screens_read i;
  g ← get;
  put {| embedded := embedded g;
         screens := <[Z.to_nat i := {| systray := Some sw |}]> (screens g);
         nscreen := nscreen g |}.

(** ** Helpers that live outside systray.c *)

(** Modelled from the spec: the [MIN] macro (common/util.h) is not part of
    systray.c.  The spec gives the negotiated version as the minimum of the
    two versions, the lower one on a tie.  Both operands are taken
    non-negative and in range, so that C's conversions leave them as they
    are. *)
Definition MIN (a b : Z) : Z := if a <? b then a else b.

Definition set_info (e : xembed_window_t) (i : xembed_info_t) : xembed_window_t :=
  {| win := win e; phys_screen := phys_screen e; info := i |}.

(** Modelled from the spec: [xembed_window_list_append] is generated from the
    list macros outside systray.c.  The spec makes append idempotent by
    handle: a handle already in the registry gets its metadata updated and no
    entry is added, an unknown handle is added at the end. *)
Fixpoint xembed_window_list_append (l : list xembed_window_t) (em : xembed_window_t)
  : list xembed_window_t :=
  match l with
  | [] => [em]
  | e :: rest =>
      if win e =? win em then set_info e (info em) :: rest
      else e :: xembed_window_list_append rest em
  end.

(** Record an embedded window's metadata by handle (first entry). *)
Fixpoint registry_info (l : list xembed_window_t) (w : xcb_window_t)
  : option xembed_info_t :=
  match l with
  | [] => None
  | e :: rest => if win e =? w then Some (info e) else registry_info rest w
  end.

(** [snprintf(buf, size, "_NET_SYSTEM_TRAY_S%d", n)]: the text, cut to
    [size - 1] characters. *)
Definition string_of_Z (n : Z) : string := NilZero.string_of_int (Z.to_int n).

Definition snprintf_tray (size : nat) (n : Z) : string :=
  String.substring 0 (size - 1) ("_NET_SYSTEM_TRAY_S" ++ string_of_Z n)%string.

(** The loop of systray_process_client_message over the roots of the
    setup: stops at the first root equal to [root], counting in
    [screen_nbr]. *)
Fixpoint scan_roots (iter : list xcb_window_t) (root : xcb_window_t) (screen_nbr : Z) : Z :=
  match iter with
  | [] => screen_nbr
  | r :: rest =>
      if negb (r =? root) then scan_roots rest root (screen_nbr + 1)
      else screen_nbr
  end.

(** ** The functions of systray.c *)

(** The constants that systray.c takes from common/xembed.h and widget.h:
    the functions below are read against any value of them. *)
Class headers :=
  { XEMBED_VERSION : Z;
    XEMBED_MAPPED : Z;
    XEMBED_REQUEST_FOCUS : Z;
    XEMBED_FOCUS_CURRENT : Z;
    WIDGET_CACHE_EMBEDDED : Z }.

Section Systray.

Context {H : headers}.

(** The X server behind [globalconf.connection]. *)
Variable X : xserver.

(** Collaborators, as calls in the trace.  An atom request is known by the
    name it was made with. *)
Definition xutil_intern_atom (name : string) : M string :=
  call (InternAtom name);; mret name.

Definition xutil_intern_atom_reply (req : string) : M xcb_atom_t :=
  call (InternAtomReply req);; mret (intern_atom X req).

Definition simplewindow_new (screen x y w h border : Z) : M simple_window_t :=
  call (SimplewindowNew screen x y w h border);;
  mret {| window := new_window X screen |}.

(** Modelled from the spec: [xembed_info_get] and the allocator [p_new] are
    not part of systray.c.  The spec has a query without answer yield a
    zero-valued info record: [em->info] is filled when the property can be
    read and is zero otherwise. *)
Definition xembed_info_get (w : xcb_window_t) : M xembed_info_t :=
  call (XembedInfoGet w);;
  mret (default {| version := 0; flags := 0 |} (xembed_info X w)).

Definition xcb_get_geometry_reply (w : xcb_window_t) : M (option xcb_window_t) :=
  call (GetGeometry w);; mret (geometry_root X w).

(** [atom_name0] and [ev0] are what the stack holds in [atom_name] and [ev]
    when the function is entered: neither is initialised.  The event is
    filled and then dropped, it is never sent. *)
Definition systray_init (atom_name0 : string) (ev0 : xcb_client_message_event_t)
           (phys_screen : Z) : M unit :=
  let atom_name := atom_name0 in
  atom_manager_q ← xutil_intern_atom atom_name;
  let atom_name := snprintf_tray 22 phys_screen in
  atom_systray_q ← xutil_intern_atom atom_name;
  sw ← simplewindow_new phys_screen (-1) (-1) 1 1 0;
  screens_write_systray phys_screen sw;;
  manager ← xutil_intern_atom_reply atom_manager_q;
  atom_systray ← xutil_intern_atom_reply atom_systray_q;
  let ev := {| response_type := manager mod 256;
               format := 32;
               ev_window := ev_window ev0;
               data32_0 := XCB_CURRENT_TIME;
               data32_1 := atom_systray;
               data32_2 := window sw;
               data32_3 := 0;
               data32_4 := 0 |} in
  call (SetSelectionOwner (window sw) atom_systray XCB_CURRENT_TIME).

(** [em_info] is [em->info] once it is filled. *)
Definition systray_request_handle (embed_win : xcb_window_t) (phys_screen : Z)
           (info : option xembed_info_t) : M Z :=
  call (ChangeWindowAttributes embed_win XCB_CW_EVENT_MASK select_input_val);;
  call (WindowSetstate embed_win XCB_WM_WITHDRAWN_STATE);;
  em_info ← match info with
            | Some i => mret i
            | None => xembed_info_get embed_win
            end;
  let em := {| win := embed_win; phys_screen := phys_screen; info := em_info |} in
  g ← get;
  put {| embedded := xembed_window_list_append (embedded g) em;
         screens := screens g;
         nscreen := nscreen g |};;
  s ← screens_read phys_screen;
  match systray s with
  | Some sw =>
      call (XembedEmbeddedNotify (win em) (window sw)
              (MIN XEMBED_VERSION (version em_info)))
  | None => mret tt
  end;;
  (if Z.land (flags em_info) XEMBED_MAPPED =? 0 then mret tt
   else call (MapWindow (win em)));;
  g ← get;
  for_each (seqZ 0 (nscreen g))
           (fun i => call (WidgetInvalidateCache i WIDGET_CACHE_EMBEDDED));;
  mret 0.

Definition systray_process_client_message (ev : xcb_client_message_event_t) : M Z :=
  if data32_1 ev =? SYSTEM_TRAY_REQUEST_DOCK then
    geom_r ← xcb_get_geometry_reply (ev_window ev);
    match geom_r with
    | None => mret (-1)
    | Some root =>
        let screen_nbr := scan_roots (setup_roots X) root 0 in
        systray_request_handle (data32_2 ev) screen_nbr None;;
        mret 0
    end
  else mret 0.

Definition xembed_process_client_message (ev : xcb_client_message_event_t) : M Z :=
  (if data32_1 ev =? XEMBED_REQUEST_FOCUS
   then call (XembedFocusIn (ev_window ev) XEMBED_FOCUS_CURRENT)
   else mret tt);;
  mret 0.

End Systray.

(** ** Reading traces and registries *)

Definition notify_of (c : xcall) : option (xcb_window_t * xcb_window_t * Z) :=
  match c with XembedEmbeddedNotify cl e v => Some (cl, e, v) | _ => None end.

Definition invalidate_of (c : xcall) : option (Z * Z) :=
  match c with WidgetInvalidateCache i k => Some (i, k) | _ => None end.

Definition mapped_of (c : xcall) : option xcb_window_t :=
  match c with MapWindow w => Some w | _ => None end.

Definition atom_of (c : xcall) : option string :=
  match c with InternAtom n => Some n | _ => None end.

Definition owner_of (c : xcall) : option (xcb_window_t * xcb_atom_t * Z) :=
  match c with SetSelectionOwner w a t => Some (w, a, t) | _ => None end.

Definition embedded_notifies (tr : list xcall) := omap notify_of tr.
Definition invalidations (tr : list xcall) := omap invalidate_of tr.
Definition map_requests (tr : list xcall) := omap mapped_of tr.
Definition atom_requests (tr : list xcall) := omap atom_of tr.
Definition selection_claims (tr : list xcall) := omap owner_of tr.

(** The trace without its map requests. *)
Definition without_map (tr : list xcall) : list xcall :=
  filter (fun c => mapped_of c = None) tr.

(** How often screen [i] is invalidated with kind [k]. *)
Definition invalidation_count (i k : Z) (tr : list xcall) : nat :=
  length (filter (fun p => p = (i, k)) (invalidations tr)).

(** The value [em->info] takes in systray_request_handle. *)
Definition dock_info (X : xserver) (info : option xembed_info_t) (w : xcb_window_t)
  : xembed_info_t :=
  match info with
  | Some i => i
  | None => default {| version := 0; flags := 0 |} (xembed_info X w)
  end.

(** The value returned, if any. *)
Definition return_value {A} (o : outcome A) : option A :=
  match o with Returned a _ _ => Some a | Fault _ _ => None end.

(** ** A display with two screens

    Window 5 lies on the second root, window 6 reports a root that the setup
    does not list, no other window answers a geometry query; window 77
    carries XEMBED information. *)

(** The values of the XEMBED specification, with local version [v]. *)
Definition xembed_h (v : Z) : headers :=
  {| XEMBED_VERSION := v;
     XEMBED_MAPPED := 1;
     XEMBED_REQUEST_FOCUS := 3;
     XEMBED_FOCUS_CURRENT := 0;
     WIDGET_CACHE_EMBEDDED := 1 |}.

Definition two_roots : xserver :=
  {| setup_roots := [10; 20];
     geometry_root := fun w =>
       if w =? 5 then Some 20 else if w =? 6 then Some 30 else None;
     xembed_info := fun w =>
       if w =? 77 then Some {| version := 4; flags := 1 |} else None;
     intern_atom := fun s => Z.of_nat (String.length s);
     new_window := fun s => 500 + s |}.

Definition two_screens : awesome_t :=
  {| embedded := [];
     screens := [ {| systray := None |}; {| systray := Some {| window := 100 |} |} ];
     nscreen := 2 |}.

Definition three_screens : awesome_t :=
  {| embedded := [];
     screens := screens two_screens ++ [ {| systray := None |} ];
     nscreen := 3 |}.

Definition docked_77 : awesome_t :=
  {| embedded := [ {| win := 77; phys_screen := 1;
                      info := {| version := 4; flags := 1 |} |} ];
     screens := screens two_screens;
     nscreen := 2 |}.

Definition dock_message (sender target : xcb_window_t) : xcb_client_message_event_t :=
  {| response_type := 33; format := 32; ev_window := sender;
     data32_0 := XCB_CURRENT_TIME; data32_1 := SYSTEM_TRAY_REQUEST_DOCK;
     data32_2 := target; data32_3 := 0; data32_4 := 0 |}.

Definition xembed_message (sender code : Z) : xcb_client_message_event_t :=
  {| response_type := 33; format := 32; ev_window := sender;
     data32_0 := XCB_CURRENT_TIME; data32_1 := code;
     data32_2 := 0; data32_3 := 0; data32_4 := 0 |}.

(** ** The run of systray_request_handle, call by call *)

Definition screen_at (g : awesome_t) (i : Z) : option screen_t :=
  if 0 <=? i then screens g !! Z.to_nat i else None.

Definition registered (g : awesome_t) (em : xembed_window_t) : awesome_t :=
  {| embedded := xembed_window_list_append (embedded g) em;
     screens := screens g;
     nscreen := nscreen g |}.

Definition dock_prologue (embed_win : xcb_window_t) (info : option xembed_info_t)
  : list xcall :=
  [ChangeWindowAttributes embed_win XCB_CW_EVENT_MASK select_input_val;
   WindowSetstate embed_win XCB_WM_WITHDRAWN_STATE]
  ++ match info with Some _ => [] | None => [XembedInfoGet embed_win] end.

Definition notify_calls (local : Z) (embed_win : xcb_window_t) (s : screen_t)
           (i : xembed_info_t) : list xcall :=
  match systray s with
  | Some sw => [XembedEmbeddedNotify embed_win (window sw) (MIN local (version i))]
  | None => []
  end.

Definition map_calls (mapped : Z) (embed_win : xcb_window_t) (i : xembed_info_t)
  : list xcall :=
  if Z.land (flags i) mapped =? 0 then [] else [MapWindow embed_win].

Definition invalidate_calls (kind n : Z) : list xcall :=
  (fun i => WidgetInvalidateCache i kind) <$> seqZ 0 n.

(** The windows whose XEMBED information is asked for in a trace. *)
Definition info_query_of (c : xcall) : option xcb_window_t :=
  match c with XembedInfoGet w => Some w | _ => None end.

Definition info_queries (tr : list xcall) := omap info_query_of tr.

(** The windows whose geometry is asked for in a trace. *)
Definition geometry_query_of (c : xcall) : option xcb_window_t :=
  match c with GetGeometry w => Some w | _ => None end.

Definition geometry_queries (tr : list xcall) := omap geometry_query_of tr.

(** * Properties *)

Section Properties.

Context {H : headers}.
Variable X : xserver.

Ltac run_monad :=
  unfold mbind, M_bind, bind, mret, M_ret, ret, get, put; simpl.

Lemma for_each_call (f : Z -> xcall) (l : list Z) (g : awesome_t) :
  for_each l (fun i => call (f i)) g = Returned tt g (f <$> l).
Proof.
  induction l as [|i l IH]; [reflexivity|].
  cbn [for_each fmap list_fmap]. unfold mbind, M_bind, bind.
  change (call (f i) g) with (Returned tt g [f i]). cbv iota beta.
  rewrite IH. reflexivity.
Qed.

Lemma screens_read_run (i : Z) (g : awesome_t) :
  screens_read i g =
  match screen_at g i with Some s => Returned s g [] | None => Fault g [] end.
Proof.
  unfold screens_read, screen_at. destruct (0 <=? i); reflexivity.
Qed.

Lemma systray_request_handle_run embed_win phys_screen info g :
  systray_request_handle X embed_win phys_screen info g =
  let i := dock_info X info embed_win in
  let g' := registered g {| win := embed_win; phys_screen := phys_screen; info := i |} in
  match screen_at g phys_screen with
  | None => Fault g' (dock_prologue embed_win info)
  | Some s =>
      Returned 0 g'
        (dock_prologue embed_win info
         ++ notify_calls XEMBED_VERSION embed_win s i
         ++ map_calls XEMBED_MAPPED embed_win i
         ++ invalidate_calls WIDGET_CACHE_EMBEDDED (nscreen g))
  end.
Proof.
  unfold systray_request_handle, xembed_info_get, dock_prologue, notify_calls,
    map_calls, invalidate_calls, registered.
  run_monad.
  assert (Hs : forall e, screen_at {| embedded := e; screens := screens g; nscreen := nscreen g |}
                 phys_screen = screen_at g phys_screen) by reflexivity.
  destruct info as [i|]; simpl; rewrite screens_read_run, Hs;
    destruct (screen_at g phys_screen) as [s|]; simpl; try reflexivity;
    destruct (systray s) as [sw|]; simpl;
    destruct (Z.land _ XEMBED_MAPPED =? 0); simpl;
    rewrite for_each_call; simpl; rewrite ?app_nil_r; reflexivity.
Qed.

(** ** The registry *)

Lemma append_same_length l em :
  win em ∈ (win <$> l) -> length (xembed_window_list_append l em) = length l.
Proof.
  induction l as [|e l IH]; csimpl; intros Hin.
  - inversion Hin.
  - destruct (Z.eqb_spec (win e) (win em)) as [Heq|Hne]; csimpl; [reflexivity|].
    apply elem_of_cons in Hin as [Hin|Hin]; [congruence|].
    rewrite IH by assumption. reflexivity.
Qed.

Lemma append_fresh l em :
  win em ∉ (win <$> l) -> xembed_window_list_append l em = l ++ [em].
Proof.
  induction l as [|e l IH]; csimpl; intros Hnin; [reflexivity|].
  apply not_elem_of_cons in Hnin as [Hne Hnin].
  destruct (Z.eqb_spec (win e) (win em)) as [Heq|_]; [congruence|].
  rewrite IH by assumption. reflexivity.
Qed.

Lemma append_known_handles l em :
  win em ∈ (win <$> l) -> win <$> xembed_window_list_append l em = win <$> l.
Proof.
  induction l as [|e l IH]; csimpl; intros Hin.
  - inversion Hin.
  - destruct (Z.eqb_spec (win e) (win em)) as [Heq|Hne]; csimpl; [reflexivity|].
    apply elem_of_cons in Hin as [Hin|Hin]; [congruence|].
    rewrite IH by assumption. reflexivity.
Qed.

Lemma append_registers l em : win em ∈ (win <$> xembed_window_list_append l em).
Proof.
  induction l as [|e l IH]; csimpl.
  - apply elem_of_cons. left. reflexivity.
  - destruct (Z.eqb_spec (win e) (win em)) as [Heq|Hne]; csimpl.
    + apply elem_of_cons. left. symmetry. assumption.
    + apply elem_of_cons. right. assumption.
Qed.

Lemma append_registry_info l em :
  registry_info (xembed_window_list_append l em) (win em) = Some (info em).
Proof.
  induction l as [|e l IH]; csimpl.
  - rewrite Z.eqb_refl. reflexivity.
  - destruct (Z.eqb_spec (win e) (win em)) as [Heq|Hne]; csimpl.
    + rewrite Heq, Z.eqb_refl. reflexivity.
    + destruct (Z.eqb_spec (win e) (win em)); [congruence|]. assumption.
Qed.

Lemma append_NoDup l em :
  NoDup (win <$> l) -> NoDup (win <$> xembed_window_list_append l em).
Proof.
  intros Hnd. destruct (decide (win em ∈ (win <$> l))) as [Hin|Hnin].
  - rewrite append_known_handles by assumption. assumption.
  - rewrite append_fresh by assumption. rewrite fmap_app. csimpl.
    apply NoDup_app. split; [assumption|]. split.
    + intros w Hw Hw'. apply list_elem_of_singleton in Hw'. subst. contradiction.
    + apply NoDup_singleton.
Qed.

Lemma final_state_request_handle embed_win phys_screen info g :
  final_state (systray_request_handle X embed_win phys_screen info g) =
  registered g {| win := embed_win; phys_screen := phys_screen;
                  info := dock_info X info embed_win |}.
Proof.
  rewrite systray_request_handle_run. simpl.
  destruct (screen_at g phys_screen); reflexivity.
Qed.

(** C1.  Docking the same window twice: the second call leaves the number of
    registry entries and their handles as the first call left them, the
    entry of the window then holds the metadata of the second call, and a
    registry with one entry per handle stays so. *)
Theorem dock_twice_same_handle embed_win screen1 screen2 info1 info2 g :
  let g1 := final_state (systray_request_handle X embed_win screen1 info1 g) in
  let g2 := final_state (systray_request_handle X embed_win screen2 info2 g1) in
  length (embedded g2) = length (embedded g1)
  /\ win <$> embedded g2 = win <$> embedded g1
  /\ registry_info (embedded g2) embed_win = Some (dock_info X info2 embed_win)
  /\ (NoDup (win <$> embedded g) ->
      NoDup (win <$> embedded g1) /\ NoDup (win <$> embedded g2)).
Proof.
  intros g1 g2. subst g2 g1. rewrite !final_state_request_handle. simpl.
  set (em1 := {| win := embed_win; phys_screen := screen1;
                 info := dock_info X info1 embed_win |}).
  set (em2 := {| win := embed_win; phys_screen := screen2;
                 info := dock_info X info2 embed_win |}).
  assert (Hin : win em2 ∈ (win <$> xembed_window_list_append (embedded g) em1))
    by apply (append_registers (embedded g) em1).
  repeat split.
  - apply append_same_length, Hin.
  - apply append_known_handles, Hin.
  - apply (append_registry_info _ em2).
  - apply append_NoDup. assumption.
  - do 2 apply append_NoDup. assumption.
Qed.


(** ** Reading the trace of a dock *)

Lemma omap_all_none {A B} (f : A -> option B) (l : list A) :
  (forall x, x ∈ l -> f x = None) -> omap f l = [].
Proof.
  induction l as [|x l IH]; intros Hall; [reflexivity|].
  csimpl. rewrite (Hall x) by (apply elem_of_cons; left; reflexivity).
  apply IH. intros y Hy. apply Hall, elem_of_cons. right. assumption.
Qed.

Lemma omap_fmap_some {A B C} (f : B -> option C) (k : A -> B) (h : A -> C)
      (l : list A) :
  (forall x, f (k x) = Some (h x)) -> omap f (k <$> l) = h <$> l.
Proof.
  intros Hall. induction l as [|x l IH]; [reflexivity|].
  csimpl. rewrite Hall, IH. reflexivity.
Qed.

Lemma count_in_NoDup {A} `{EqDecision A} (l : list A) (x : A) :
  NoDup l -> x ∈ l -> length (filter (fun y => y = x) l) = 1%nat.
Proof.
  induction 1 as [|y l Hnin Hnd IH]; intros Hin; [inversion Hin|].
  rewrite filter_cons. destruct (decide (y = x)) as [->|Hne].
  - simpl. f_equal. apply length_zero_iff_nil.
    destruct (filter (fun y => y = x) l) as [|z t] eqn:E; [reflexivity|].
    assert (Hz : z ∈ filter (fun y => y = x) l) by (rewrite E; left).
    apply list_elem_of_filter in Hz as [-> Hz]. contradiction.
  - apply elem_of_cons in Hin as [->|Hin]; [contradiction|]. apply IH, Hin.
Qed.

Lemma invalidations_invalidate_calls kind n :
  invalidations (invalidate_calls kind n) = (fun i => (i, kind)) <$> seqZ 0 n.
Proof. apply omap_fmap_some. reflexivity. Qed.

Lemma dock_prologue_quiet {B} (f : xcall -> option B) embed_win info :
  f (ChangeWindowAttributes embed_win XCB_CW_EVENT_MASK select_input_val) = None ->
  f (WindowSetstate embed_win XCB_WM_WITHDRAWN_STATE) = None ->
  f (XembedInfoGet embed_win) = None ->
  omap f (dock_prologue embed_win info) = [].
Proof.
  intros H1 H2 H3. unfold dock_prologue.
  destruct info; csimpl; rewrite ?H1, ?H2, ?H3; reflexivity.
Qed.

Lemma invalidations_dock embed_win info s i n :
  invalidations (dock_prologue embed_win info
                 ++ notify_calls XEMBED_VERSION embed_win s i
                 ++ map_calls XEMBED_MAPPED embed_win i
                 ++ invalidate_calls WIDGET_CACHE_EMBEDDED n)
  = (fun j => (j, WIDGET_CACHE_EMBEDDED)) <$> seqZ 0 n.
Proof.
  rewrite <- invalidations_invalidate_calls.
  unfold invalidations. rewrite !omap_app, dock_prologue_quiet by reflexivity.
  unfold notify_calls, map_calls.
  destruct (systray s), (Z.land _ _ =? 0); reflexivity.
Qed.

Lemma embedded_notifies_dock embed_win info s i n :
  embedded_notifies (dock_prologue embed_win info
                     ++ notify_calls XEMBED_VERSION embed_win s i
                     ++ map_calls XEMBED_MAPPED embed_win i
                     ++ invalidate_calls WIDGET_CACHE_EMBEDDED n)
  = match systray s with
    | Some sw => [(embed_win, window sw, MIN XEMBED_VERSION (version i))]
    | None => []
    end.
Proof.
  unfold embedded_notifies. rewrite !omap_app, dock_prologue_quiet by reflexivity.
  assert (Hinv : omap notify_of (invalidate_calls WIDGET_CACHE_EMBEDDED n) = []).
  { apply omap_all_none. intros c Hc.
    apply list_elem_of_fmap in Hc as (j & -> & _). reflexivity. }
  rewrite Hinv. unfold notify_calls, map_calls.
  destruct (systray s), (Z.land _ _ =? 0); reflexivity.
Qed.

Lemma map_requests_dock embed_win info s i n :
  map_requests (dock_prologue embed_win info
                ++ notify_calls XEMBED_VERSION embed_win s i
                ++ map_calls XEMBED_MAPPED embed_win i
                ++ invalidate_calls WIDGET_CACHE_EMBEDDED n)
  = if Z.land (flags i) XEMBED_MAPPED =? 0 then [] else [embed_win].
Proof.
  unfold map_requests. rewrite !omap_app, dock_prologue_quiet by reflexivity.
  assert (Hinv : omap mapped_of (invalidate_calls WIDGET_CACHE_EMBEDDED n) = []).
  { apply omap_all_none. intros c Hc.
    apply list_elem_of_fmap in Hc as (j & -> & _). reflexivity. }
  rewrite Hinv. unfold notify_calls, map_calls.
  destruct (systray s), (Z.land _ _ =? 0); reflexivity.
Qed.

Lemma without_map_invalidate_calls kind n :
  without_map (invalidate_calls kind n) = invalidate_calls kind n.
Proof.
  unfold without_map, invalidate_calls.
  induction (seqZ 0 n) as [|j l IH]; [reflexivity|].
  rewrite fmap_cons, filter_cons_True by reflexivity. f_equal. exact IH.
Qed.

Lemma without_map_dock_prologue embed_win info :
  without_map (dock_prologue embed_win info) = dock_prologue embed_win info.
Proof. destruct info; reflexivity. Qed.

Lemma without_map_notify_calls local embed_win s i :
  without_map (notify_calls local embed_win s i) = notify_calls local embed_win s i.
Proof. unfold notify_calls. destruct (systray s); reflexivity. Qed.

Lemma MIN_min a b : MIN a b = Z.min a b.
Proof. unfold MIN. destruct (Z.ltb_spec a b); lia. Qed.


(** ** The scan of the screen roots *)

Lemma scan_roots_shift iter root n :
  scan_roots iter root n = n + scan_roots iter root 0.
Proof.
  revert n. induction iter as [|r iter IH]; intros n; simpl; [lia|].
  destruct (r =? root); simpl; [lia|].
  rewrite (IH (n + 1)), (IH (0 + 1)). lia.
Qed.

Lemma scan_roots_first_match roots root (N : nat) :
  roots !! N = Some root ->
  (forall j, (j < N)%nat -> roots !! j <> Some root) ->
  scan_roots roots root 0 = Z.of_nat N.
Proof.
  revert N. induction roots as [|r roots IH]; intros N HN Hfirst.
  - inversion HN.
  - simpl. destruct (Z.eqb_spec r root) as [->|Hne]; simpl.
    + destruct N as [|N]; [reflexivity|].
      exfalso. apply (Hfirst 0%nat); [lia|reflexivity].
    + destruct N as [|N]; [simpl in HN; congruence|].
      rewrite scan_roots_shift, (IH N); [lia|exact HN|].
      intros j Hj. apply (Hfirst (S j)). lia.
Qed.

Lemma scan_roots_match roots root (N : nat) :
  NoDup roots -> roots !! N = Some root -> scan_roots roots root 0 = Z.of_nat N.
Proof.
  intros Hnd HN. apply scan_roots_first_match; [assumption|].
  intros j Hj Hjr. assert (j = N) by (eapply NoDup_lookup; eassumption). lia.
Qed.

Lemma scan_roots_no_match roots root :
  root ∉ roots -> scan_roots roots root 0 = Z.of_nat (length roots).
Proof.
  induction roots as [|r roots IH]; intros Hnin; [reflexivity|].
  apply not_elem_of_cons in Hnin as [Hne Hnin]. simpl.
  destruct (Z.eqb_spec r root) as [->|_]; [congruence|]. simpl.
  rewrite scan_roots_shift, IH by assumption. lia.
Qed.

Lemma systray_process_client_message_run ev g :
  systray_process_client_message X ev g =
  if data32_1 ev =? SYSTEM_TRAY_REQUEST_DOCK then
    match geometry_root X (ev_window ev) with
    | None => Returned (-1) g [GetGeometry (ev_window ev)]
    | Some root =>
        match systray_request_handle X (data32_2 ev)
                (scan_roots (setup_roots X) root 0) None g with
        | Returned _ g' tr => Returned 0 g' (GetGeometry (ev_window ev) :: tr)
        | Fault g' tr => Fault g' (GetGeometry (ev_window ev) :: tr)
        end
    end
  else Returned 0 g [].
Proof.
  unfold systray_process_client_message, xcb_get_geometry_reply.
  destruct (data32_1 ev =? SYSTEM_TRAY_REQUEST_DOCK); [|reflexivity].
  unfold mbind, M_bind, bind, mret, M_ret, ret. simpl.
  destruct (geometry_root X (ev_window ev)) as [root|]; [|reflexivity].
  destruct (systray_request_handle X _ _ None g); simpl; rewrite ?app_nil_r; reflexivity.
Qed.

(** The sender's root is the Nth root of the setup: the window is registered
    for screen N. *)
Lemma dock_message_resolves_screen ev g root (N : nat) :
  data32_1 ev = SYSTEM_TRAY_REQUEST_DOCK ->
  geometry_root X (ev_window ev) = Some root ->
  NoDup (setup_roots X) ->
  setup_roots X !! N = Some root ->
  systray_process_client_message X ev g =
  match systray_request_handle X (data32_2 ev) (Z.of_nat N) None g with
  | Returned _ g' tr => Returned 0 g' (GetGeometry (ev_window ev) :: tr)
  | Fault g' tr => Fault g' (GetGeometry (ev_window ev) :: tr)
  end.
Proof.
  intros Hcode Hgeom Hnd HN. rewrite systray_process_client_message_run.
  rewrite Hcode, Z.eqb_refl, Hgeom, (scan_roots_match _ _ N) by assumption.
  reflexivity.
Qed.

(** No root of the setup is the sender's root: the scan ends one past the
    last screen, and that number goes to systray_request_handle, which
    registers the window before it reads the screen table. *)
Lemma dock_message_unmatched_root ev g root :
  data32_1 ev = SYSTEM_TRAY_REQUEST_DOCK ->
  geometry_root X (ev_window ev) = Some root ->
  root ∉ setup_roots X ->
  return_value (systray_process_client_message X ev g) <> Some (-1)
  /\ final_state (systray_process_client_message X ev g) =
     registered g {| win := data32_2 ev;
                     phys_screen := Z.of_nat (length (setup_roots X));
                     info := dock_info X None (data32_2 ev) |}.
Proof.
  intros Hcode Hgeom Hnin. rewrite systray_process_client_message_run.
  rewrite Hcode, Z.eqb_refl, Hgeom, scan_roots_no_match by assumption.
  pose proof (final_state_request_handle (data32_2 ev)
                (Z.of_nat (length (setup_roots X))) None g) as Hfin.
  destruct (systray_request_handle X _ _ None g); simpl in *; split;
    try assumption; discriminate.
Qed.

(** C3.  A dock request whose geometry query gets no reply: the handler
    returns -1 and [globalconf], the registry with it, is what it was; the
    query is the only request made. *)
Theorem dock_message_no_geometry_reply ev g :
  data32_1 ev = SYSTEM_TRAY_REQUEST_DOCK ->
  geometry_root X (ev_window ev) = None ->
  systray_process_client_message X ev g = Returned (-1) g [GetGeometry (ev_window ev)].
Proof.
  intros Hcode Hgeom. rewrite systray_process_client_message_run.
  rewrite Hcode, Z.eqb_refl, Hgeom. reflexivity.
Qed.

(** C4.  The version sent with the embedded notification is the minimum of
    the local version and the version the client claims, for all
    non-negative versions; negotiating 3 with 1, and 1 with 5, gives 1. *)
Theorem embedded_notify_version (C : Z) embed_win phys_screen info g s sw :
  0 <= XEMBED_VERSION -> 0 <= C ->
  version (dock_info X info embed_win) = C ->
  screen_at g phys_screen = Some s ->
  systray s = Some sw ->
  embedded_notifies (trace (systray_request_handle X embed_win phys_screen info g))
  = [(embed_win, window sw, Z.min XEMBED_VERSION C)]
  /\ MIN 3 1 = 1 /\ MIN 1 5 = 1.
Proof.
  intros _ _ HC Hs Hsw. split; [|split; reflexivity].
  rewrite systray_request_handle_run. cbv zeta. rewrite Hs.
  cbn [trace]. rewrite embedded_notifies_dock, Hsw, HC, MIN_min. reflexivity.
Qed.

(** C5.  A dock that succeeds, on whatever screen K, invalidates the
    embedded cache of every screen below [nscreen], each once and in order,
    and invalidates nothing else; when [nscreen] counts the entries of the
    screen table, every entry of the table is invalidated once. *)
Theorem dock_invalidates_every_screen embed_win K info g r g' tr :
  systray_request_handle X embed_win K info g = Returned r g' tr ->
  invalidations tr = (fun i => (i, WIDGET_CACHE_EMBEDDED)) <$> seqZ 0 (nscreen g)
  /\ (forall i, 0 <= i < nscreen g ->
        invalidation_count i WIDGET_CACHE_EMBEDDED tr = 1%nat)
  /\ (forall i k, (i, k) ∈ invalidations tr ->
        0 <= i < nscreen g /\ k = WIDGET_CACHE_EMBEDDED)
  /\ (nscreen g = Z.of_nat (length (screens g)) ->
      forall (j : nat) (s : screen_t), screens g !! j = Some s ->
        invalidation_count (Z.of_nat j) WIDGET_CACHE_EMBEDDED tr = 1%nat).
Proof.
  rewrite systray_request_handle_run. cbv zeta.
  destruct (screen_at g K) as [s|]; [|discriminate].
  intros Hrun. apply (f_equal trace) in Hrun. cbn [trace] in Hrun. subst tr.
  pose proof (invalidations_dock embed_win info s
                (dock_info X info embed_win) (nscreen g)) as Hinv.
  assert (Honce : forall i, 0 <= i < nscreen g ->
            invalidation_count i WIDGET_CACHE_EMBEDDED
              (dock_prologue embed_win info
               ++ notify_calls XEMBED_VERSION embed_win s (dock_info X info embed_win)
               ++ map_calls XEMBED_MAPPED embed_win (dock_info X info embed_win)
               ++ invalidate_calls WIDGET_CACHE_EMBEDDED (nscreen g)) = 1%nat).
  { intros i Hi. unfold invalidation_count. rewrite Hinv.
    apply count_in_NoDup.
    - apply NoDup_fmap_2; [intros a b Hab; congruence|apply NoDup_seqZ].
    - apply list_elem_of_fmap. exists i. split; [reflexivity|].
      apply elem_of_seqZ. lia. }
  split; [exact Hinv|]. split; [exact Honce|]. split.
  - intros i k Hik. rewrite Hinv in Hik.
    apply list_elem_of_fmap in Hik as (j & Heq & Hj).
    injection Heq as -> ->. apply elem_of_seqZ in Hj. lia.
  - intros Hn j sj Hj. apply Honce. apply lookup_lt_Some in Hj. lia.
Qed.


(** C7.  On a screen of the table, the window is mapped exactly when the
    flags of its metadata meet [XEMBED_MAPPED]: one map request for the
    docked window then, none otherwise; and two requests that differ in that
    bit only produce the same calls, the map request apart. *)
Theorem map_follows_flag embed_win phys_screen info g s :
  screen_at g phys_screen = Some s ->
  let tr := trace (systray_request_handle X embed_win phys_screen info g) in
  let fl := flags (dock_info X info embed_win) in
  (Z.land fl XEMBED_MAPPED <> 0 -> map_requests tr = [embed_win])
  /\ (Z.land fl XEMBED_MAPPED = 0 -> map_requests tr = [])
  /\ (forall i1 i2,
        version i1 = version i2 ->
        Z.land (flags i1) XEMBED_MAPPED <> 0 ->
        Z.land (flags i2) XEMBED_MAPPED = 0 ->
        without_map (trace (systray_request_handle X embed_win phys_screen (Some i1) g))
        = trace (systray_request_handle X embed_win phys_screen (Some i2) g)).
Proof.
  intros Hs tr fl. subst tr fl.
  rewrite !systray_request_handle_run. cbv zeta. rewrite Hs. cbn [trace].
  rewrite map_requests_dock. repeat split.
  - intros Hset. destruct (Z.eqb_spec (Z.land (flags (dock_info X info embed_win))
                                         XEMBED_MAPPED) 0); [contradiction|reflexivity].
  - intros ->. reflexivity.
  - intros i1 i2 Hv Hset Hclear.
    rewrite !systray_request_handle_run. cbv zeta. rewrite Hs. cbn [trace].
    unfold without_map. rewrite !filter_app.
    fold (without_map (dock_prologue embed_win (Some i1))).
    fold (without_map (notify_calls XEMBED_VERSION embed_win s (dock_info X (Some i1) embed_win))).
    fold (without_map (invalidate_calls WIDGET_CACHE_EMBEDDED (nscreen g))).
    rewrite without_map_dock_prologue, without_map_notify_calls,
      without_map_invalidate_calls.
    unfold map_calls, notify_calls, dock_info. rewrite Hclear, Hv.
    destruct (Z.eqb_spec (Z.land (flags i1) XEMBED_MAPPED) 0); [contradiction|].
    reflexivity.
Qed.

(** C8.  An XEMBED message leaves [globalconf], the registry with it, as it
    was and returns 0; the only call it can make is the focus-in with
    [XEMBED_FOCUS_CURRENT] to the sender, made when the code is
    [XEMBED_REQUEST_FOCUS], and for any other code no call is made. *)
Theorem xembed_message_leaves_registry ev g :
  exists tr,
    xembed_process_client_message ev g = Returned 0 g tr
    /\ (data32_1 ev = XEMBED_REQUEST_FOCUS ->
        tr = [XembedFocusIn (ev_window ev) XEMBED_FOCUS_CURRENT])
    /\ (data32_1 ev <> XEMBED_REQUEST_FOCUS -> tr = []).
Proof.
  unfold xembed_process_client_message, mbind, M_bind, bind, mret, M_ret, ret.
  destruct (Z.eqb_spec (data32_1 ev) XEMBED_REQUEST_FOCUS) as [Heq|Hne]; simpl.
  - eexists. split; [reflexivity|]. split; [reflexivity|]. contradiction.
  - eexists. split; [reflexivity|]. split; [contradiction|reflexivity].
Qed.

(** C9.  On a screen whose [systray] is null the dock still selects the
    events, withdraws the window, registers it, maps it when the flag asks
    for it, invalidates every screen and returns 0; no embedded notification
    is sent. *)
Theorem dock_without_tray_window embed_win phys_screen info g s :
  screen_at g phys_screen = Some s ->
  systray s = None ->
  let i := dock_info X info embed_win in
  systray_request_handle X embed_win phys_screen info g =
  Returned 0
    (registered g {| win := embed_win; phys_screen := phys_screen; info := i |})
    ([ChangeWindowAttributes embed_win XCB_CW_EVENT_MASK select_input_val;
      WindowSetstate embed_win XCB_WM_WITHDRAWN_STATE]
     ++ match info with Some _ => [] | None => [XembedInfoGet embed_win] end
     ++ (if Z.land (flags i) XEMBED_MAPPED =? 0 then [] else [MapWindow embed_win])
     ++ invalidate_calls WIDGET_CACHE_EMBEDDED (nscreen g))
  /\ embedded_notifies (trace (systray_request_handle X embed_win phys_screen info g)) = [].
Proof.
  intros Hs Hnull i. subst i.
  rewrite systray_request_handle_run. cbv zeta. rewrite Hs. cbn [trace].
  rewrite embedded_notifies_dock, Hnull. split; [|reflexivity].
  unfold notify_calls, dock_prologue, map_calls. rewrite Hnull.
  rewrite <- app_assoc. reflexivity.
Qed.

(** C10.  A focus request is answered with the focus-in to its sender
    whatever the registry holds: the calls made and the value returned are
    the same from any two states, so also from one where the sender was
    never docked. *)
Theorem focus_grant_ignores_registry ev g1 g2 :
  data32_1 ev = XEMBED_REQUEST_FOCUS ->
  trace (xembed_process_client_message ev g1)
  = [XembedFocusIn (ev_window ev) XEMBED_FOCUS_CURRENT]
  /\ trace (xembed_process_client_message ev g2) = trace (xembed_process_client_message ev g1)
  /\ return_value (xembed_process_client_message ev g2) = return_value (xembed_process_client_message ev g1).
Proof.
  intros Hcode.
  unfold xembed_process_client_message, mbind, M_bind, bind, mret, M_ret, ret.
  rewrite Hcode, Z.eqb_refl. simpl. repeat split.
Qed.

(** ** The tray announce *)

Lemma systray_init_run atom_name0 ev0 phys_screen g s :
  screen_at g phys_screen = Some s ->
  systray_init X atom_name0 ev0 phys_screen g =
  Returned tt
    {| embedded := embedded g;
       screens := <[Z.to_nat phys_screen :=
                      {| systray := Some {| window := new_window X phys_screen |} |}]>
                    (screens g);
       nscreen := nscreen g |}
    [InternAtom atom_name0;
     InternAtom (snprintf_tray 22 phys_screen);
     SimplewindowNew phys_screen (-1) (-1) 1 1 0;
     InternAtomReply atom_name0;
     InternAtomReply (snprintf_tray 22 phys_screen);
     SetSelectionOwner (new_window X phys_screen)
       (intern_atom X (snprintf_tray 22 phys_screen)) XCB_CURRENT_TIME].
Proof.
  intros Hs.
  unfold systray_init, xutil_intern_atom, xutil_intern_atom_reply,
    simplewindow_new, screens_write_systray.
  unfold mbind, M_bind, bind, mret, M_ret, ret, get, put. simpl.
  rewrite screens_read_run, Hs. reflexivity.
Qed.

Lemma systray_init_first_request atom_name0 ev0 phys_screen g :
  head (atom_requests (trace (systray_init X atom_name0 ev0 phys_screen g)))
  = Some atom_name0.
Proof.
  unfold systray_init, xutil_intern_atom, xutil_intern_atom_reply,
    simplewindow_new, screens_write_systray.
  unfold mbind, M_bind, bind, mret, M_ret, ret, get, put. simpl.
  rewrite screens_read_run. destruct (screen_at g phys_screen); reflexivity.
Qed.


Lemma systray_init_requests atom_name0 ev0 phys_screen g s :
  screen_at g phys_screen = Some s ->
  let tr := trace (systray_init X atom_name0 ev0 phys_screen g) in
  atom_requests tr = [atom_name0; snprintf_tray 22 phys_screen]
  /\ selection_claims tr =
     [(new_window X phys_screen,
       intern_atom X (snprintf_tray 22 phys_screen), XCB_CURRENT_TIME)].
Proof.
  intros Hs tr. subst tr. rewrite (systray_init_run _ _ _ _ s Hs).
  split; reflexivity.
Qed.


End Properties.

(** The buffer of 22 bytes holds the whole atom name for the screen numbers
    below 1000. *)
Lemma snprintf_tray_whole (n : Z) :
  0 <= n < 1000 ->
  snprintf_tray 22 n = ("_NET_SYSTEM_TRAY_S" ++ string_of_Z n)%string.
Proof.
  intros Hn.
  assert (Hall : forallb
            (fun k => String.eqb (snprintf_tray 22 k)
                        ("_NET_SYSTEM_TRAY_S" ++ string_of_Z k)%string)
            (seqZ 0 1000) = true) by (vm_compute; reflexivity).
  rewrite forallb_forall in Hall. apply String.eqb_eq, Hall.
  apply list_elem_of_In, elem_of_seqZ. lia.
Qed.

(** ** The functions on the display with two screens *)

(** The scenario with local version 2: the sender lies on screen 1, the
    client claims version 4 and asks to be mapped. *)
Example dock_on_second_screen :
  systray_process_client_message (H := xembed_h 2) two_roots (dock_message 5 77) two_screens
  = Returned 0
      {| embedded := [ {| win := 77; phys_screen := 1;
                          info := {| version := 4; flags := 1 |} |} ];
         screens := screens two_screens;
         nscreen := 2 |}
      [GetGeometry 5;
       ChangeWindowAttributes 77 XCB_CW_EVENT_MASK select_input_val;
       WindowSetstate 77 XCB_WM_WITHDRAWN_STATE;
       XembedInfoGet 77;
       XembedEmbeddedNotify 77 100 2;
       MapWindow 77;
       WidgetInvalidateCache 0 1;
       WidgetInvalidateCache 1 1].
Proof. reflexivity. Qed.

(** C2.  Window 6 reports root 30, which is none of the roots 10 and 20.  The
    handler does not return -1: it passes screen number 2 on, the window is
    registered for that number, and the screen table is then read at index 2,
    outside a table of two screens, inside a table of three. *)
Theorem dock_message_unmatched_root_registers :
  systray_process_client_message (H := xembed_h 0) two_roots (dock_message 6 77) two_screens
  = Fault
      {| embedded := [ {| win := 77; phys_screen := 2;
                          info := {| version := 4; flags := 1 |} |} ];
         screens := screens two_screens;
         nscreen := 2 |}
      [GetGeometry 6;
       ChangeWindowAttributes 77 XCB_CW_EVENT_MASK select_input_val;
       WindowSetstate 77 XCB_WM_WITHDRAWN_STATE;
       XembedInfoGet 77]
  /\ systray_process_client_message (H := xembed_h 0) two_roots (dock_message 6 77) three_screens
     = Returned 0
         {| embedded := [ {| win := 77; phys_screen := 2;
                             info := {| version := 4; flags := 1 |} |} ];
            screens := screens three_screens;
            nscreen := 3 |}
         [GetGeometry 6;
          ChangeWindowAttributes 77 XCB_CW_EVENT_MASK select_input_val;
          WindowSetstate 77 XCB_WM_WITHDRAWN_STATE;
          XembedInfoGet 77;
          MapWindow 77;
          WidgetInvalidateCache 0 1;
          WidgetInvalidateCache 1 1;
          WidgetInvalidateCache 2 1].
Proof. split; reflexivity. Qed.

(** C6.  The name of the first atom request is whatever [atom_name] holds on
    entry, since the buffer is first written after that request: with an
    empty buffer the empty name is requested, with other contents those.
    The second request and the selection claim are as announced. *)
Theorem systray_init_first_name_from_stack :
  atom_requests
    (trace (systray_init two_roots EmptyString (dock_message 0 0) 0 two_screens))
  = [EmptyString; "_NET_SYSTEM_TRAY_S0"%string]
  /\ atom_requests
       (trace (systray_init two_roots "junk" (dock_message 0 0) 0 two_screens))
     = ["junk"%string; "_NET_SYSTEM_TRAY_S0"%string]
  /\ selection_claims
       (trace (systray_init two_roots "junk" (dock_message 0 0) 0 two_screens))
     = [(500, 19, XCB_CURRENT_TIME)].
Proof. repeat split. Qed.

(** ** The theorems at work on the display with two screens *)

(** Window 77 docked with version 4, then again with version 9 and no
    mapped flag: still one entry, now with the later metadata. *)
Lemma dock_twice_same_handle_witness :
  NoDup (win <$> embedded two_screens)
  /\ embedded
       (final_state
          (systray_request_handle (H := xembed_h 0) two_roots 77 1
             (Some {| version := 9; flags := 0 |})
             (final_state
                (systray_request_handle (H := xembed_h 0) two_roots 77 1 None two_screens))))
     = [ {| win := 77; phys_screen := 1; info := {| version := 9; flags := 0 |} |} ]
  /\ NoDup
       (win <$> embedded
          (final_state
             (systray_request_handle (H := xembed_h 0) two_roots 77 1
                (Some {| version := 9; flags := 0 |})
                (final_state
                   (systray_request_handle (H := xembed_h 0) two_roots 77 1 None two_screens))))).
Proof.
  assert (Hnd : NoDup (win <$> embedded two_screens)) by constructor.
  split; [exact Hnd|]. split; [reflexivity|].
  destruct (dock_twice_same_handle (H := xembed_h 0) two_roots 77 1 1 None
              (Some {| version := 9; flags := 0 |}) two_screens)
    as (_ & _ & _ & Hkeep).
  exact (proj2 (Hkeep Hnd)).
Defined.

Lemma dock_message_no_geometry_reply_witness :
  geometry_root two_roots 9 = None
  /\ systray_process_client_message (H := xembed_h 0) two_roots (dock_message 9 77) docked_77
     = Returned (-1) docked_77 [GetGeometry 9].
Proof.
  split; [reflexivity|].
  apply (dock_message_no_geometry_reply (H := xembed_h 0) two_roots (dock_message 9 77) docked_77);
    reflexivity.
Defined.

Lemma embedded_notify_version_witness :
  embedded_notifies
    (trace (systray_request_handle (H := xembed_h 3) two_roots 77 1
              (Some {| version := 1; flags := 0 |}) two_screens))
  = [(77, 100, 1)]
  /\ embedded_notifies
       (trace (systray_request_handle (H := xembed_h 1) two_roots 77 1
                 (Some {| version := 5; flags := 0 |}) two_screens))
     = [(77, 100, 1)].
Proof.
  split.
  - apply (embedded_notify_version (H := xembed_h 3) two_roots 1 77 1
             (Some {| version := 1; flags := 0 |}) two_screens
             {| systray := Some {| window := 100 |} |} {| window := 100 |});
      [simpl; lia | lia | reflexivity | reflexivity | reflexivity].
  - apply (embedded_notify_version (H := xembed_h 1) two_roots 5 77 1
             (Some {| version := 5; flags := 0 |}) two_screens
             {| systray := Some {| window := 100 |} |} {| window := 100 |});
      [simpl; lia | lia | reflexivity | reflexivity | reflexivity].
Defined.

Lemma dock_invalidates_every_screen_witness :
  invalidations
    (trace (systray_request_handle (H := xembed_h 0) two_roots 77 0 None two_screens))
  = [(0, 1); (1, 1)].
Proof.
  apply (dock_invalidates_every_screen (H := xembed_h 0) two_roots 77 0 None two_screens 0
           (final_state (systray_request_handle (H := xembed_h 0) two_roots 77 0 None two_screens))
           (trace (systray_request_handle (H := xembed_h 0) two_roots 77 0 None two_screens))).
  reflexivity.
Defined.

Lemma map_follows_flag_witness :
  map_requests
    (trace (systray_request_handle (H := xembed_h 0) two_roots 77 1 None two_screens)) = [77]
  /\ map_requests
       (trace (systray_request_handle (H := xembed_h 0) two_roots 78 1 None two_screens)) = [].
Proof.
  split.
  - apply (map_follows_flag (H := xembed_h 0) two_roots 77 1 None two_screens
             {| systray := Some {| window := 100 |} |}); [reflexivity|].
    vm_compute. discriminate.
  - apply (map_follows_flag (H := xembed_h 0) two_roots 78 1 None two_screens
             {| systray := Some {| window := 100 |} |}); reflexivity.
Defined.

Lemma xembed_message_leaves_registry_witness :
  xembed_process_client_message (H := xembed_h 0) (xembed_message 42 3) docked_77
  = Returned 0 docked_77 [XembedFocusIn 42 0]
  /\ xembed_process_client_message (H := xembed_h 0) (xembed_message 42 1) docked_77
     = Returned 0 docked_77 [].
Proof.
  split.
  - destruct (xembed_message_leaves_registry (H := xembed_h 0) (xembed_message 42 3) docked_77)
      as (tr & Hrun & Hfocus & _).
    rewrite Hrun, (Hfocus eq_refl). reflexivity.
  - destruct (xembed_message_leaves_registry (H := xembed_h 0) (xembed_message 42 1) docked_77)
      as (tr & Hrun & _ & Hother).
    rewrite Hrun, Hother; [reflexivity|]. vm_compute. discriminate.
Defined.

Lemma dock_without_tray_window_witness :
  systray (default {| systray := None |} (screen_at two_screens 0)) = None
  /\ systray_request_handle (H := xembed_h 0) two_roots 77 0 None two_screens
     = Returned 0
         {| embedded := [ {| win := 77; phys_screen := 0;
                             info := {| version := 4; flags := 1 |} |} ];
            screens := screens two_screens;
            nscreen := 2 |}
         [ChangeWindowAttributes 77 XCB_CW_EVENT_MASK select_input_val;
          WindowSetstate 77 XCB_WM_WITHDRAWN_STATE;
          XembedInfoGet 77;
          MapWindow 77;
          WidgetInvalidateCache 0 1;
          WidgetInvalidateCache 1 1].
Proof.
  split; [reflexivity|].
  apply (dock_without_tray_window (H := xembed_h 0) two_roots 77 0 None two_screens
           {| systray := None |}); reflexivity.
Defined.

(** Window 42 asks for the focus: it is in neither registry, and gets the
    same answer from the empty one and from the one that holds window 77. *)
Lemma focus_grant_ignores_registry_witness :
  registry_info (embedded two_screens) 42 = None
  /\ registry_info (embedded docked_77) 42 = None
  /\ trace (xembed_process_client_message (H := xembed_h 0) (xembed_message 42 3) two_screens)
     = [XembedFocusIn 42 0]
  /\ trace (xembed_process_client_message (H := xembed_h 0) (xembed_message 42 3) docked_77)
     = trace (xembed_process_client_message (H := xembed_h 0) (xembed_message 42 3) two_screens).
Proof.
  split; [reflexivity|]. split; [reflexivity|].
  destruct (focus_grant_ignores_registry (H := xembed_h 0) (xembed_message 42 3)
              two_screens docked_77 eq_refl) as (Hfocus & Hsame & _).
  split; [exact Hfocus | exact Hsame].
Defined.

(** * Further properties of systray.c *)

Section Further.

Context {H : headers}.
Variable X : xserver.

(** ** The scan of the roots, lines 136-137 *)

Lemma scan_roots_step r roots root :
  scan_roots (r :: roots) root 0 =
  if r =? root then 0 else 1 + scan_roots roots root 0.
Proof.
  simpl. destruct (r =? root); simpl; [reflexivity|].
  apply scan_roots_shift.
Qed.

Lemma scan_roots_nonneg roots root : 0 <= scan_roots roots root 0.
Proof.
  induction roots as [|r roots IH]; [simpl; lia|].
  rewrite scan_roots_step. destruct (r =? root); lia.
Qed.

(** X1.  The screen number the scan ends with lies between 0 and the number
    of roots; below the number of roots it is the index of the first root
    equal to the sender's, and it is the number of roots exactly when no
    root is equal to it. *)
Theorem scan_roots_in_range roots root :
  let n := scan_roots roots root 0 in
  0 <= n <= Z.of_nat (length roots)
  /\ (n < Z.of_nat (length roots) -> roots !! Z.to_nat n = Some root)
  /\ (forall j, (j < Z.to_nat n)%nat -> roots !! j <> Some root)
  /\ (n = Z.of_nat (length roots) <-> root ∉ roots).
Proof.
  induction roots as [|r roots IH]; cbv zeta.
  - simpl. split; [lia|]. split; [lia|]. split; [intros j Hj; lia|].
    split; [intros _ Hin; inversion Hin | reflexivity].
  - cbv zeta in IH. destruct IH as (Hrange & Hhit & Hfirst & Hnone).
    rewrite scan_roots_step. simpl length.
    destruct (Z.eqb_spec r root) as [->|Hne].
    + split; [lia|]. split; [intros _; reflexivity|].
      split; [intros j Hj; simpl in Hj; lia|].
      split; [lia | intros Hnin; exfalso; apply Hnin; left].
    + assert (Hn := scan_roots_nonneg roots root).
      replace (Z.to_nat (1 + scan_roots roots root 0))
        with (S (Z.to_nat (scan_roots roots root 0))) by lia.
      split; [lia|]. split; [intros Hlt; simpl; apply Hhit; lia|].
      split; [intros [|j] Hj; simpl; [congruence | apply Hfirst; lia]|].
      split.
      * intros Heq. apply not_elem_of_cons. split; [congruence|].
        apply Hnone. lia.
      * intros Hnin. apply not_elem_of_cons in Hnin as [_ Hnin].
        apply Hnone in Hnin. lia.
Qed.

(** ** The status of systray_process_client_message, lines 120-145 *)

(** X2.  The handler returns 0 or -1 when it returns; it returns -1 exactly
    for a dock request whose geometry query gets no reply; and a message
    with another code makes no request and leaves [globalconf] alone. *)
Theorem systray_message_status ev g :
  (forall r, return_value (systray_process_client_message X ev g) = Some r ->
     r = 0 \/ r = -1)
  /\ (return_value (systray_process_client_message X ev g) = Some (-1) <->
      data32_1 ev = SYSTEM_TRAY_REQUEST_DOCK
      /\ geometry_root X (ev_window ev) = None)
  /\ (data32_1 ev <> SYSTEM_TRAY_REQUEST_DOCK ->
      systray_process_client_message X ev g = Returned 0 g []).
Proof.
  rewrite systray_process_client_message_run.
  destruct (Z.eqb_spec (data32_1 ev) SYSTEM_TRAY_REQUEST_DOCK) as [Hcode|Hcode].
  - destruct (geometry_root X (ev_window ev)) as [root|] eqn:Hgeom.
    + destruct (systray_request_handle X (data32_2 ev) _ None g);
        simpl; repeat split; try congruence; try discriminate.
      * intros r [= <-]. left. reflexivity.
      * intros [_ Hno]. discriminate.
      * intros [_ Hno]. discriminate.
    + simpl. repeat split; try congruence.
      intros r [= <-]. right. reflexivity.
  - simpl. repeat split; try congruence.
    + intros r [= <-]. left. reflexivity.
    + intros [Hc _]. contradiction.
Qed.

(** X3.  A dock request whose sender lies on a root of the setup: the
    geometry of the sender is asked for, once and first, and what follows is
    the dock of the window named in slot 2 of the message, not of the
    sender, on the screen of the first root equal to the sender's root, with
    its XEMBED information read from the window. *)
Theorem dock_message_first_matching_root ev g root (N : nat) :
  data32_1 ev = SYSTEM_TRAY_REQUEST_DOCK ->
  geometry_root X (ev_window ev) = Some root ->
  setup_roots X !! N = Some root ->
  (forall j, (j < N)%nat -> setup_roots X !! j <> Some root) ->
  let dock := systray_request_handle X (data32_2 ev) (Z.of_nat N) None g in
  let o := systray_process_client_message X ev g in
  final_state o = final_state dock
  /\ trace o = GetGeometry (ev_window ev) :: trace dock
  /\ geometry_queries (trace o) = [ev_window ev]
  /\ return_value o = (fun _ => 0) <$> return_value dock.
Proof.
  intros Hcode Hgeom HN Hfirst dock o. subst dock o.
  rewrite systray_process_client_message_run.
  rewrite Hcode, Z.eqb_refl, Hgeom, (scan_roots_first_match _ _ N) by assumption.
  rewrite systray_request_handle_run. cbv zeta.
  destruct (screen_at g (Z.of_nat N)) as [s|]; cbn [final_state trace return_value];
    (split; [reflexivity|]); (split; [reflexivity|]); (split; [|reflexivity]).
  - unfold geometry_queries. cbn [omap list_omap geometry_query_of]. f_equal.
    rewrite !omap_app, dock_prologue_quiet by reflexivity.
    unfold notify_calls, map_calls.
    assert (Hinv : omap geometry_query_of
                     (invalidate_calls WIDGET_CACHE_EMBEDDED (nscreen g)) = []).
    { apply omap_all_none. intros c Hc.
      apply list_elem_of_fmap in Hc as (j & -> & _). reflexivity. }
    rewrite Hinv.
    destruct (systray s), (Z.land _ _ =? 0); reflexivity.
  - reflexivity.
Qed.

(** ** What a dock leaves alone, lines 73-145 *)

(** X4.  Neither systray_request_handle nor systray_process_client_message
    writes the screen table or the screen count: they are the same after
    the call, however it ends. *)
Theorem dock_keeps_screen_table embed_win phys_screen info ev g :
  screens (final_state (systray_request_handle X embed_win phys_screen info g))
  = screens g
  /\ nscreen (final_state (systray_request_handle X embed_win phys_screen info g))
     = nscreen g
  /\ screens (final_state (systray_process_client_message X ev g)) = screens g
  /\ nscreen (final_state (systray_process_client_message X ev g)) = nscreen g.
Proof.
  rewrite final_state_request_handle. split; [reflexivity|]. split; [reflexivity|].
  rewrite systray_process_client_message_run.
  destruct (data32_1 ev =? SYSTEM_TRAY_REQUEST_DOCK); [|split; reflexivity].
  destruct (geometry_root X (ev_window ev)) as [root|]; [|split; reflexivity].
  pose proof (final_state_request_handle X (data32_2 ev)
                (scan_roots (setup_roots X) root 0) None g) as Hfin.
  destruct (systray_request_handle X (data32_2 ev) _ None g);
    cbn [final_state] in *; rewrite Hfin; split; reflexivity.
Qed.

(** ** The tray window of a screen, lines 36-68 and 102-105 *)

Lemma screen_at_in_table g K s :
  screen_at g K = Some s -> 0 <= K /\ (Z.to_nat K < length (screens g))%nat.
Proof.
  unfold screen_at. destruct (Z.leb_spec 0 K); [|discriminate].
  intros Hs. split; [assumption|]. eapply lookup_lt_Some, Hs.
Qed.

Lemma final_state_systray_init atom_name0 ev0 K g s :
  screen_at g K = Some s ->
  final_state (systray_init X atom_name0 ev0 K g) =
  {| embedded := embedded g;
     screens := <[Z.to_nat K :=
                    {| systray := Some {| window := new_window X K |} |}]>
                  (screens g);
     nscreen := nscreen g |}.
Proof. intros Hs. rewrite (systray_init_run X _ _ _ _ s Hs). reflexivity. Qed.

Lemma screen_at_after_init atom_name0 ev0 K g s j :
  screen_at g K = Some s ->
  screen_at (final_state (systray_init X atom_name0 ev0 K g)) j =
  if j =? K then Some {| systray := Some {| window := new_window X K |} |}
  else screen_at g j.
Proof.
  intros Hs. rewrite (final_state_systray_init _ _ _ _ s Hs).
  apply screen_at_in_table in Hs as [HK Hlen].
  unfold screen_at. cbn [screens].
  destruct (Z.eqb_spec j K) as [->|Hne].
  - destruct (Z.leb_spec 0 K); [|lia]. apply list_lookup_insert_eq, Hlen.
  - destruct (Z.leb_spec 0 j); [|reflexivity].
    apply list_lookup_insert_ne. lia.
Qed.

(** X5.  systray_init on a screen of the table returns, leaves the registry,
    the screen count, the size of the table and every other screen as they
    were, stores the new tray window in the screen's record, and claims for
    that window, once, the atom answered to the request named
    _NET_SYSTEM_TRAY_S<screen>, at the current time. *)
Theorem systray_init_stores_tray_window atom_name0 ev0 K g s :
  screen_at g K = Some s ->
  let o := systray_init X atom_name0 ev0 K g in
  return_value o = Some tt
  /\ embedded (final_state o) = embedded g
  /\ nscreen (final_state o) = nscreen g
  /\ length (screens (final_state o)) = length (screens g)
  /\ screen_at (final_state o) K
     = Some {| systray := Some {| window := new_window X K |} |}
  /\ (forall j, j <> K -> screen_at (final_state o) j = screen_at g j)
  /\ selection_claims (trace o)
     = [(new_window X K, intern_atom X (snprintf_tray 22 K), XCB_CURRENT_TIME)].
Proof.
  intros Hs o. subst o.
  split; [rewrite (systray_init_run X _ _ _ _ s Hs); reflexivity|].
  split; [rewrite (final_state_systray_init _ _ _ _ s Hs); reflexivity|].
  split; [rewrite (final_state_systray_init _ _ _ _ s Hs); reflexivity|].
  split.
  { rewrite (final_state_systray_init _ _ _ _ s Hs). apply length_insert. }
  split.
  { rewrite (screen_at_after_init _ _ _ _ s) by assumption.
    rewrite Z.eqb_refl. reflexivity. }
  split.
  { intros j Hj. rewrite (screen_at_after_init _ _ _ _ s) by assumption.
    destruct (Z.eqb_spec j K); [contradiction|reflexivity]. }
  rewrite (systray_init_run X _ _ _ _ s Hs). reflexivity.
Qed.

(** X6.  After systray_init on screen K, a dock on K sends one embedded
    notification, from the docked window's side to the tray window that
    systray_init created, whether the screen had a tray window before or
    not. *)
Theorem dock_after_init_notifies_new_tray atom_name0 ev0 K g s embed_win info :
  screen_at g K = Some s ->
  let g' := final_state (systray_init X atom_name0 ev0 K g) in
  fst <$> embedded_notifies (trace (systray_request_handle X embed_win K info g'))
  = [(embed_win, new_window X K)].
Proof.
  intros Hs g'. subst g'.
  rewrite systray_request_handle_run. cbv zeta.
  rewrite (screen_at_after_init _ _ _ _ s) by assumption.
  rewrite Z.eqb_refl. cbn [trace].
  rewrite embedded_notifies_dock. reflexivity.
Qed.

(** X7.  systray_init on screen K does not change what a dock on another
    screen does: the same calls are made and the same value is returned as
    before the tray of K was announced. *)
Theorem init_leaves_docks_elsewhere atom_name0 ev0 K K' g s embed_win info :
  screen_at g K = Some s ->
  K' <> K ->
  let g' := final_state (systray_init X atom_name0 ev0 K g) in
  trace (systray_request_handle X embed_win K' info g')
  = trace (systray_request_handle X embed_win K' info g)
  /\ return_value (systray_request_handle X embed_win K' info g')
     = return_value (systray_request_handle X embed_win K' info g).
Proof.
  intros Hs Hne g'. subst g'.
  rewrite !systray_request_handle_run. cbv zeta.
  rewrite (screen_at_after_init _ _ _ _ s) by assumption.
  destruct (Z.eqb_spec K' K); [contradiction|].
  rewrite (final_state_systray_init _ _ _ _ s Hs). cbn [nscreen].
  destruct (screen_at g K'); split; reflexivity.
Qed.

(** ** The information of the docked window, lines 94-97 *)

(** X8.  With the information given by the caller the window is not asked
    for it; with a null pointer it is asked once, as the third call.  When
    the caller gives what the window would answer, the two docks end in the
    same state with the same value and differ in that one call only. *)
Theorem dock_with_supplied_info embed_win K i g :
  let given := systray_request_handle X embed_win K (Some i) g in
  let asked := systray_request_handle X embed_win K None g in
  info_queries (trace given) = []
  /\ info_queries (trace asked) = [embed_win]
  /\ trace asked !! 2%nat = Some (XembedInfoGet embed_win)
  /\ (xembed_info X embed_win = Some i ->
      final_state asked = final_state given
      /\ return_value asked = return_value given
      /\ trace asked
         = take 2 (trace given) ++ XembedInfoGet embed_win :: drop 2 (trace given)).
Proof.
  intros given asked. subst given asked.
  rewrite !systray_request_handle_run. cbv zeta.
  assert (Hquiet : forall s j n,
            info_queries (notify_calls XEMBED_VERSION embed_win s j
                          ++ map_calls XEMBED_MAPPED embed_win j
                          ++ invalidate_calls WIDGET_CACHE_EMBEDDED n) = []).
  { intros s j n. unfold info_queries. rewrite !omap_app.
    assert (Hinv : omap info_query_of
                     (invalidate_calls WIDGET_CACHE_EMBEDDED n) = []).
    { apply omap_all_none. intros c Hc.
      apply list_elem_of_fmap in Hc as (k & -> & _). reflexivity. }
    rewrite Hinv. unfold notify_calls, map_calls.
    destruct (systray s), (Z.land _ _ =? 0); reflexivity. }
  destruct (screen_at g K) as [s|]; cbn [trace final_state return_value].
  - split.
    { unfold info_queries in *. rewrite omap_app, Hquiet. reflexivity. }
    split.
    { unfold info_queries in *. rewrite omap_app, Hquiet. reflexivity. }
    split; [reflexivity|].
    intros Hi. unfold dock_info. rewrite Hi. cbn [default].
    split; [reflexivity|]. split; reflexivity.
  - split; [reflexivity|]. split; [reflexivity|]. split; [reflexivity|].
    intros Hi. unfold dock_info. rewrite Hi. cbn [default].
    split; [reflexivity|]. split; reflexivity.
Qed.


End Further.

(** ** The name of the tray selection, lines 42-46 *)

Lemma string_of_Z_inj (n m : Z) : string_of_Z n = string_of_Z m -> n = m.
Proof.
  unfold string_of_Z. intros Heq. apply DecimalZ.to_int_inj.
  assert (Hnorm : forall k, NilZero.int_of_string
                              (NilZero.string_of_int (Z.to_int k))
                            = Some (Z.to_int k)).
  { intros k. apply NilZero.isi; destruct k; simpl; try discriminate;
      intros [= Hnil]; exact (DecimalPos.Unsigned.to_uint_nonnil _ Hnil). }
  pose proof (Hnorm n) as Hn. rewrite Heq, Hnorm in Hn. congruence.
Qed.

Lemma length_substring_le (s : string) (k : nat) :
  (String.length (String.substring 0 k s) <= k)%nat.
Proof.
  revert s. induction k as [|k IH]; intros [|c s]; simpl; try lia.
  specialize (IH s). lia.
Qed.

(** X10.  The atom name written by snprintf always fits the buffer of 22
    bytes with its final zero, and two screen numbers from 0 to 999 never
    get the same name. *)
Theorem tray_atom_names_distinct :
  (forall n, (String.length (snprintf_tray 22 n) <= 21)%nat)
  /\ (forall n m, 0 <= n < 1000 -> 0 <= m < 1000 ->
        snprintf_tray 22 n = snprintf_tray 22 m -> n = m).
Proof.
  split.
  - intros n. unfold snprintf_tray. apply length_substring_le.
  - intros n m Hn Hm Heq.
    rewrite !snprintf_tray_whole in Heq by assumption.
    apply string_of_Z_inj. simpl in Heq. congruence.
Qed.

(** ** The further properties on the display with two screens *)

Lemma scan_roots_in_range_witness :
  scan_roots [10; 20] 20 0 < Z.of_nat (length [10; 20])
  /\ [10; 20] !! Z.to_nat (scan_roots [10; 20] 20 0) = Some 20
  /\ 30 ∉ [10; 20].
Proof.
  destruct (scan_roots_in_range [10; 20] 20) as (_ & Hhit & _ & _).
  destruct (scan_roots_in_range [10; 20] 30) as (_ & _ & _ & Hnone).
  assert (Hlt : scan_roots [10; 20] 20 0 < Z.of_nat (length [10; 20]))
    by (vm_compute; reflexivity).
  split; [exact Hlt|]. split; [exact (Hhit Hlt)|].
  apply Hnone. reflexivity.
Defined.

Lemma systray_message_status_witness :
  return_value
    (systray_process_client_message (H := xembed_h 0) two_roots
       (dock_message 9 77) two_screens) = Some (-1)
  /\ systray_process_client_message (H := xembed_h 0) two_roots
       (xembed_message 5 1) docked_77 = Returned 0 docked_77 [].
Proof.
  destruct (systray_message_status (H := xembed_h 0) two_roots
              (dock_message 9 77) two_screens) as (_ & Hminus & _).
  destruct (systray_message_status (H := xembed_h 0) two_roots
              (xembed_message 5 1) docked_77) as (_ & _ & Hother).
  split.
  - apply Hminus. split; reflexivity.
  - apply Hother. vm_compute. discriminate.
Defined.

Lemma dock_message_first_matching_root_witness :
  trace (systray_process_client_message (H := xembed_h 2) two_roots
           (dock_message 5 77) two_screens)
  = GetGeometry 5
    :: trace (systray_request_handle (H := xembed_h 2) two_roots 77 1 None
                two_screens)
  /\ geometry_queries
       (trace (systray_process_client_message (H := xembed_h 2) two_roots
                 (dock_message 5 77) two_screens)) = [5].
Proof.
  assert (Hfirst : forall j, (j < 1)%nat -> setup_roots two_roots !! j <> Some 20).
  { intros [|j] Hj; [discriminate|lia]. }
  destruct (dock_message_first_matching_root (H := xembed_h 2) two_roots
              (dock_message 5 77) two_screens 20 1 eq_refl eq_refl eq_refl Hfirst)
    as (_ & Htrace & Hqueries & _).
  split; [exact Htrace | exact Hqueries].
Defined.

Lemma systray_init_stores_tray_window_witness :
  screen_at two_screens 0 = Some {| systray := None |}
  /\ screen_at
       (final_state (systray_init two_roots "junk" (dock_message 0 0) 0 two_screens)) 0
     = Some {| systray := Some {| window := 500 |} |}
  /\ screen_at
       (final_state (systray_init two_roots "junk" (dock_message 0 0) 0 two_screens)) 1
     = screen_at two_screens 1.
Proof.
  destruct (systray_init_stores_tray_window two_roots "junk" (dock_message 0 0)
              0 two_screens {| systray := None |} eq_refl)
    as (_ & _ & _ & _ & Hown & Hother & _).
  split; [reflexivity|]. split; [exact Hown|].
  apply Hother. lia.
Defined.

Lemma dock_after_init_notifies_new_tray_witness :
  fst <$> embedded_notifies
            (trace (systray_request_handle (H := xembed_h 0) two_roots 77 0 None
                      (final_state
                         (systray_init two_roots "junk" (dock_message 0 0) 0
                            two_screens))))
  = [(77, 500)].
Proof.
  apply (dock_after_init_notifies_new_tray (H := xembed_h 0) two_roots "junk"
           (dock_message 0 0) 0 two_screens {| systray := None |} 77 None).
  reflexivity.
Defined.

Lemma init_leaves_docks_elsewhere_witness :
  trace (systray_request_handle (H := xembed_h 0) two_roots 77 1 None
           (final_state
              (systray_init two_roots "junk" (dock_message 0 0) 0 two_screens)))
  = trace (systray_request_handle (H := xembed_h 0) two_roots 77 1 None two_screens).
Proof.
  apply (init_leaves_docks_elsewhere (H := xembed_h 0) two_roots "junk"
           (dock_message 0 0) 0 1 two_screens {| systray := None |} 77 None);
    [reflexivity | lia].
Defined.

Lemma dock_with_supplied_info_witness :
  xembed_info two_roots 77 = Some {| version := 4; flags := 1 |}
  /\ final_state (systray_request_handle (H := xembed_h 0) two_roots 77 1 None
                    two_screens)
     = final_state (systray_request_handle (H := xembed_h 0) two_roots 77 1
                      (Some {| version := 4; flags := 1 |}) two_screens)
  /\ info_queries
       (trace (systray_request_handle (H := xembed_h 0) two_roots 77 1 None
                 two_screens)) = [77].
Proof.
  destruct (dock_with_supplied_info (H := xembed_h 0) two_roots 77 1
              {| version := 4; flags := 1 |} two_screens)
    as (_ & Hasked & _ & Hsame).
  split; [reflexivity|]. split; [|exact Hasked].
  exact (proj1 (Hsame eq_refl)).
Defined.


Lemma tray_atom_names_distinct_witness :
  snprintf_tray 22 7 <> snprintf_tray 22 8
  /\ (String.length (snprintf_tray 22 123456) <= 21)%nat.
Proof.
  destruct tray_atom_names_distinct as (Hfit & Hdistinct).
  split; [|apply Hfit].
  intros Heq. apply Hdistinct in Heq; lia.
Defined.
